(** * strace.ebpf: the session orchestrator of [src/strace.ebpf.c]

    A shallow embedding of [check_args] and [main].  The program is a
    sequence of calls into the operating system and into the other
    translation units of the tracer (command-line parser, eBPF generator,
    BCC, probe manager, output formatter).  Those calls are modelled as
    events appended to a log, and their results are read from an oracle
    [env]; the global variables of the file are the fields of [state]. *)

From Stdlib Require Import ZArith List String Ascii Bool Lia.
Import ListNotations.
Open Scope Z_scope.

Module Strace.

(** ** Constants of the C library and of Linux *)

Definition EXIT_SUCCESS : Z := 0.
Definition EXIT_FAILURE : Z := 1.
Definition SIGKILL : Z := 9.
Definition SIGCONT : Z := 18.
Definition ECHILD : Z := 10.
Definition WNOHANG : Z := 1.

(** what are we tracing ? *)
Definition TRACING_ALL : Z := 0.
Definition TRACING_CMD : Z := 1.
Definition TRACING_PID : Z := 2.

(** ** Data *)

(** [struct cl_options]: the fields [main] and [check_args] touch.  The
    pointer [command] and the flags [ff_mode] and [debug] are only ever
    tested for being non-zero. *)
Record cl_options := mk_cl_options {
  pid : Z;
  command : bool;
  ff_mode : bool;
  debug : bool;
  out_lf_fld_sep_ch : ascii;
  pr_arr_max : Z;
  out_buf_size : Z;
  strace_reader_page_cnt : Z
}.

Definition set_pid (v : Z) (a : cl_options) : cl_options :=
  mk_cl_options v (command a) (ff_mode a) (debug a) (out_lf_fld_sep_ch a)
    (pr_arr_max a) (out_buf_size a) (strace_reader_page_cnt a).
Definition set_out_lf_fld_sep_ch (v : ascii) (a : cl_options) : cl_options :=
  mk_cl_options (pid a) (command a) (ff_mode a) (debug a) v
    (pr_arr_max a) (out_buf_size a) (strace_reader_page_cnt a).
Definition set_pr_arr_max (v : Z) (a : cl_options) : cl_options :=
  mk_cl_options (pid a) (command a) (ff_mode a) (debug a) (out_lf_fld_sep_ch a)
    v (out_buf_size a) (strace_reader_page_cnt a).
Definition set_out_buf_size (v : Z) (a : cl_options) : cl_options :=
  mk_cl_options (pid a) (command a) (ff_mode a) (debug a) (out_lf_fld_sep_ch a)
    (pr_arr_max a) v (strace_reader_page_cnt a).
Definition set_strace_reader_page_cnt (v : Z) (a : cl_options) : cl_options :=
  mk_cl_options (pid a) (command a) (ff_mode a) (debug a) (out_lf_fld_sep_ch a)
    (pr_arr_max a) (out_buf_size a) v.

(** [struct bpf_ctx], as far as [main] uses it. *)
Record bpf_ctx := mk_bpf_ctx {
  module : bool;          (* b->module != NULL *)
  b_debug : bool;
  pr_arr_qty : Z
}.

(** What one return of [perf_reader_poll] finds: the two flags as the
    callbacks and the signal handlers left them, and what the system calls
    of the termination test answer in this iteration. *)
Record wakeup := mk_wakeup {
  w_OutputError : Z;
  w_AbortTracing : Z;
  w_waitpid : Z;          (* waitpid(-1, NULL, WNOHANG) *)
  w_errno : Z;            (* errno after a failed waitpid *)
  w_kill0 : Z             (* kill(Args.pid, 0) *)
}.

(** The answers of everything [main] calls. *)
Record env := mk_env {
  OUT_BUF_SIZE : Z;
  STRACE_READER_PAGE_CNT_DEFAULT : Z;
  o_cl_parser : cl_options -> cl_options * Z;  (* Args filled in, st_optind *)
  o_kill0 : Z -> Z;                 (* kill(pid, 0) in check_args *)
  o_setup_out_lf : bool;            (* Out_lf != NULL afterwards *)
  o_prctl : Z;
  o_start_command : Z;
  o_generate_ebpf : bool;           (* bpf_str != NULL *)
  o_calloc_ctx : bool;              (* b != NULL *)
  o_bpf_module_create : bool;       (* b->module != NULL *)
  o_attach_probes : Z;
  o_pr_arr_qty : Z;                 (* b->pr_arr_qty after attach_probes *)
  o_Print_header : Z;
  o_attach_callback : Z;
  o_calloc_readers : bool;          (* readers != NULL *)
  o_wakeups : list wakeup
}.

Inductive level := LvlError | LvlWarning | LvlInfo.

(** The calls that leave the translation unit. *)
Inductive event :=
| EvMsg (lvl : level) (text : string)
| EvHelp
| EvPerror (text : string)
| EvClParser
| EvKill (p sig : Z)
| EvSetupOutLf
| EvCheckBpfJit
| EvInitPrintingEvents
| EvInitScTbl
| EvPrctl
| EvAttachSignalsHandlers
| EvStartCommand
| EvGenerateEbpf
| EvApplyProcessAttachCode
| EvApplyTraceHHeader
| EvFprintEbpfCode
| EvSaveTraceH
| EvCallocCtx
| EvBpfModuleCreate
| EvFreeBpfStr
| EvAttachProbes
| EvPrintHeader
| EvAttachCallback
| EvCallocReaders
| EvPoll (qty : Z)
| EvWaitpid (p options : Z)
| EvFflush
| EvFreeReaders
| EvDetachAll.

(** A log entry: the call, and the value [PidToBeKilled] had when it was
    made. *)
Record step := mk_step { ev : event; marker : Z }.

(** The globals of the file, [errno], and the log. *)
Record state := mk_state {
  Args : cl_options;
  Out_lf : bool;           (* Out_lf != NULL *)
  OutputError : Z;
  AbortTracing : Z;
  PidToBeKilled : Z;
  errno : Z;
  trace : list step
}.

Definition with_Args (f : cl_options -> cl_options) (s : state) : state :=
  mk_state (f (Args s)) (Out_lf s) (OutputError s) (AbortTracing s)
    (PidToBeKilled s) (errno s) (trace s).
Definition with_Out_lf (v : bool) (s : state) : state :=
  mk_state (Args s) v (OutputError s) (AbortTracing s)
    (PidToBeKilled s) (errno s) (trace s).
Definition with_flags (oe ab : Z) (s : state) : state :=
  mk_state (Args s) (Out_lf s) oe ab (PidToBeKilled s) (errno s) (trace s).
Definition with_PidToBeKilled (v : Z) (s : state) : state :=
  mk_state (Args s) (Out_lf s) (OutputError s) (AbortTracing s)
    v (errno s) (trace s).
Definition with_errno (v : Z) (s : state) : state :=
  mk_state (Args s) (Out_lf s) (OutputError s) (AbortTracing s)
    (PidToBeKilled s) v (trace s).
Definition log (e : event) (s : state) : state :=
  mk_state (Args s) (Out_lf s) (OutputError s) (AbortTracing s)
    (PidToBeKilled s) (errno s) (trace s ++ [mk_step e (PidToBeKilled s)]).

(** Objects with static storage duration start as zero. *)
Definition zero_options : cl_options :=
  mk_cl_options 0 false false false zero 0 0 0.
Definition initial : state := mk_state zero_options false 0 0 0 0 [].

(** ** The monad: state, and the end of the process *)

(** How a run ends: the process exits with a status, or it stays blocked
    in [perf_reader_poll] because nothing wakes it up any more. *)
Inductive outcome := Exited (status : Z) | Blocked.

Inductive res (A : Type) := Val (a : A) | Halt (o : outcome).
Arguments Val {A} a.
Arguments Halt {A} o.

Definition M (A : Type) : Type := state -> res A * state.

Definition ret {A} (a : A) : M A := fun s => (Val a, s).
Definition bind {A B} (m : M A) (k : A -> M B) : M B :=
  fun s => match m s with
           | (Val a, s') => k a s'
           | (Halt o, s') => (Halt o, s')
           end.
Definition halt {A} (o : outcome) : M A := fun s => (Halt o, s).
Definition exit {A} (status : Z) : M A := halt (Exited status).
Definition get {A} (f : state -> A) : M A := fun s => (Val (f s), s).
Definition modify (f : state -> state) : M unit := fun s => (Val tt, f s).
Definition call (e : event) : M unit := modify (log e).

Notation "x <- m ;; k" := (bind m (fun x => k))
  (at level 100, m at next level, right associativity).
Notation "m ;; k" := (bind m (fun _ => k))
  (at level 100, right associativity).

Definition ERROR (text : string) : M unit := call (EvMsg LvlError text).
Definition WARNING (text : string) : M unit := call (EvMsg LvlWarning text).
Definition INFO (text : string) : M unit := call (EvMsg LvlInfo text).

(** ** [check_args] *)

(** [args] is the parameter, read where the code reads [args->...]; the
    liveness probe reads the global [Args.pid].  [main] passes [&Args]. *)
Definition check_args (E : env) (args : cl_options) : M Z :=
  if command args && (pid args >? 0) then
    ERROR "command and PID cannot be set together" ;;
    call EvHelp ;;
    exit EXIT_FAILURE
  else if pid args >? 0 then
    (* check if process with given PID exists *)
    p <- get (fun s => pid (Args s)) ;;
    call (EvKill p 0) ;;
    if o_kill0 E p =? -1 then
      ERROR "process with PID '%d' does not exist" ;;
      exit EXIT_FAILURE
    else ret TRACING_PID
  else if command args then ret TRACING_CMD
  else
    WARNING "will trace all syscalls in the system..." ;;
    ret TRACING_ALL.

(** ** [main] *)

(** The labels [error_detach] and [error_kill] at the end of [main]. *)
Definition error_kill : M Z :=
  k <- get PidToBeKilled ;;
  (if k =? 0 then ret tt
   else (* kill the started child *) call (EvKill k SIGKILL)) ;;
  ret EXIT_FAILURE.

Definition error_detach : M Z :=
  call EvDetachAll ;;
  error_kill.

(** [perf_reader_poll]: returns with the flags as the wakeup found them. *)
Definition perf_reader_poll (qty : Z) (w : wakeup) : M unit :=
  call (EvPoll qty) ;;
  modify (with_flags (w_OutputError w) (w_AbortTracing w)).

(** [waitpid(-1, NULL, WNOHANG)] *)
Definition waitpid_any (w : wakeup) : M Z :=
  call (EvWaitpid (-1) WNOHANG) ;;
  (if w_waitpid w =? -1 then modify (with_errno (w_errno w)) else ret tt) ;;
  ret (w_waitpid w).

(** The [switch (tracing)] of the loop body; the result is the new value
    of [stop_tracing], which is 0 when the switch is entered. *)
Definition switch_tracing (tracing : Z) (w : wakeup) : M Z :=
  if tracing =? TRACING_ALL then
    (* wait for a terminating signal *)
    ret 0
  else if tracing =? TRACING_CMD then
    ff <- get (fun s => ff_mode (Args s)) ;;
    if ff then
      (* trace until all children exit *)
      r <- waitpid_any w ;;
      e <- get errno ;;
      if (r =? -1) && (e =? ECHILD) then
        INFO "Notice: all children exited" ;;
        ret 1
      else ret 0
    else
      (* trace until the child exits *)
      r <- waitpid_any w ;;
      p <- get (fun s => pid (Args s)) ;;
      if r =? p then
        INFO "Notice: the child exited" ;;
        ret 1
      else ret 0
  else if tracing =? TRACING_PID then
    (* check if the process traced by PID exists *)
    p <- get (fun s => pid (Args s)) ;;
    call (EvKill p 0) ;;
    if w_kill0 w =? -1 then
      ERROR "traced process with PID '%d' disappeared" ;;
      ret 1
    else ret 0
  else ret 0.

(** One pass through the body of [while (!stop_tracing)]: [None] is a
    [break], [Some v] is the end of the body with [stop_tracing = v]. *)
Definition loop_body (tracing : Z) (b : bpf_ctx) (w : wakeup) : M (option Z) :=
  perf_reader_poll (pr_arr_qty b) w ;;
  oe <- get OutputError ;;
  if negb (oe =? 0) then
    ERROR "error while writing to output" ;;
    ret None
  else
    ab <- get AbortTracing ;;
    if negb (ab =? 0) then
      INFO "Notice: terminated by signal. Exiting..." ;;
      ret None
    else
      v <- switch_tracing tracing w ;;
      ret (Some v).

(** The loop.  With no wakeup left the process stays in the poll call. *)
Fixpoint while_loop (tracing : Z) (b : bpf_ctx) (ws : list wakeup) : M unit :=
  match ws with
  | [] => call (EvPoll (pr_arr_qty b)) ;; halt Blocked
  | w :: ws' =>
      r <- loop_body tracing b w ;;
      match r with
      | None => ret tt
      | Some stop_tracing =>
          if stop_tracing =? 0 then while_loop tracing b ws' else ret tt
      end
  end.

Definition main (E : env) : M Z :=
  modify (with_Args (set_pid (-1))) ;;
  modify (with_Args (set_out_lf_fld_sep_ch " ")) ;;
  modify (with_Args (set_pr_arr_max 1000)) ;;
  modify (with_Args (set_out_buf_size (OUT_BUF_SIZE E))) ;;
  modify (with_Args (set_strace_reader_page_cnt
                       (STRACE_READER_PAGE_CNT_DEFAULT E))) ;;
  (* parse command-line options *)
  call EvClParser ;;
  modify (with_Args (fun a => fst (o_cl_parser E a))) ;;
  (* check input arguments *)
  args <- get Args ;;
  tracing <- check_args E args ;;
  call EvSetupOutLf ;;
  modify (with_Out_lf (o_setup_out_lf E)) ;;
  out <- get Out_lf ;;
  if negb out then
    ERROR "failed to set up the output file" ;;
    ret EXIT_FAILURE
  else
  call EvCheckBpfJit ;;
  INFO "Initializing..." ;;
  call EvInitPrintingEvents ;;
  call EvInitScTbl ;;
  ff <- get (fun s => ff_mode (Args s)) ;;
  prctl_failed <-
    (if ff then call EvPrctl ;; ret (o_prctl E =? -1) else ret false) ;;
  if prctl_failed then
    call (EvPerror "prctl") ;;
    ERROR "failed to set 'child subreaper' attribute" ;;
    ret EXIT_FAILURE
  else
  call EvAttachSignalsHandlers ;;
  cmd <- get (fun s => command (Args s)) ;;
  start_failed <-
    (if cmd then
       (* run the command *)
       call EvStartCommand ;;
       modify (with_Args (set_pid (o_start_command E))) ;;
       p <- get (fun s => pid (Args s)) ;;
       if p =? -1 then ret true
       else
         (* if tracing is aborted, kill the started process *)
         modify (with_PidToBeKilled p) ;;
         ret false
     else ret false) ;;
  if start_failed then
    ERROR "failed to start the command" ;;
    ret EXIT_FAILURE
  else
  INFO "Generating eBPF code..." ;;
  call EvGenerateEbpf ;;
  if negb (o_generate_ebpf E) then
    ERROR "cannot generate eBPF code" ;;
    ret EXIT_FAILURE
  else
  call EvApplyProcessAttachCode ;;
  call EvApplyTraceHHeader ;;
  dbg <- get (fun s => debug (Args s)) ;;
  (if dbg then call EvFprintEbpfCode else ret tt) ;;
  call EvSaveTraceH ;;
  call EvCallocCtx ;;
  if negb (o_calloc_ctx E) then
    ERROR "out of memory" ;;
    call EvFreeBpfStr ;;
    ret EXIT_FAILURE
  else
  INFO "Compiling generated eBPF code..." ;;
  call EvBpfModuleCreate ;;
  call EvFreeBpfStr ;;
  if negb (o_bpf_module_create E) then
    ERROR "cannot compile eBPF code" ;;
    ret EXIT_FAILURE
  else
  let b := mk_bpf_ctx (o_bpf_module_create E) dbg 0 in
  INFO "Attaching probes..." ;;
  call EvAttachProbes ;;
  let b := mk_bpf_ctx (module b) (b_debug b) (o_pr_arr_qty E) in
  if o_attach_probes E =? 0 then
    ERROR "no probes were attached" ;;
    error_kill
  else
  INFO "Starting tracing..." ;;
  call EvPrintHeader ;;
  if negb (o_Print_header E =? 0) then
    ERROR "error while printing header" ;;
    error_detach
  else
  call EvAttachCallback ;;
  if negb (o_attach_callback E =? 0) then
    ERROR "cannot attach callbacks to perf output '%s'" ;;
    error_detach
  else
  cmd <- get (fun s => command (Args s)) ;;
  (if cmd then
     (* let child go *)
     p <- get (fun s => pid (Args s)) ;;
     call (EvKill p SIGCONT)
   else ret tt) ;;
  call EvCallocReaders ;;
  if negb (o_calloc_readers E) then
    ERROR "out of memory" ;;
    error_detach
  else
  while_loop tracing b (o_wakeups E) ;;
  call EvFflush ;;
  call EvFreeReaders ;;
  call EvDetachAll ;;
  ret EXIT_SUCCESS.

(** The value [main] returns is the exit status of the process. *)
Definition process_end (x : res Z * state) : outcome * state :=
  match x with
  | (Val status, s) => (Exited status, s)
  | (Halt o, s) => (o, s)
  end.

(** Running the process from its initial state. *)
Definition run (E : env) : outcome * state := process_end (main E initial).

Definition events (s : state) : list event := map ev (trace s).

End Strace.

Import Strace.

(** * Vocabulary of the properties *)

(** The state in which the flags are tested: after the poll call. *)
Definition polled (b : bpf_ctx) (w : wakeup) (s : state) : state :=
  with_flags (w_OutputError w) (w_AbortTracing w) (log (EvPoll (pr_arr_qty b)) s).

(** The calls made inside the loop: the poll, the two non-blocking
    system calls of the termination test, and messages. *)
Definition loop_event (e : event) : bool :=
  match e with
  | EvPoll _ | EvWaitpid _ _ | EvMsg _ _ => true
  | EvKill _ sig => sig =? 0
  | _ => false
  end.

Definition is_poll (e : event) : bool :=
  match e with EvPoll _ => true | _ => false end.

(** Number of calls of [perf_reader_poll] in a log. *)
Definition polls (l : list step) : nat :=
  List.length (filter is_poll (map ev l)).

(** [s'] is [s] after some steps of the loop: the options, the output file
    and the marker are untouched, the log grew by [steps]. *)
Definition loop_steps (s s' : state) (steps : list step) : Prop :=
  Args s' = Args s /\ Out_lf s' = Out_lf s /\
  PidToBeKilled s' = PidToBeKilled s /\
  trace s' = trace s ++ steps /\
  Forall (fun st => marker st = PidToBeKilled s /\ loop_event (ev st) = true)
         steps.

(** A wakeup at which one of the two flags is found set. *)
Definition flagged (w : wakeup) : Prop :=
  w_OutputError w <> 0 \/ w_AbortTracing w <> 0.

(** A wakeup at which both flags are found clear. *)
Definition unflagged (w : wakeup) : Prop :=
  w_OutputError w = 0 /\ w_AbortTracing w = 0.

(** The loop ends in the iteration of wakeup [w], whatever would come
    after it. *)
Definition ends_loop (tracing : Z) (b : bpf_ctx) (w : wakeup) (s : state) : Prop :=
  forall ws, fst (while_loop tracing b (w :: ws) s) = Val tt.

(** The non-blocking wait returns the pid [p] of a child it reaped. *)
Definition reaps (w : wakeup) (p : Z) : Prop :=
  0 < w_waitpid w /\ w_waitpid w = p.

(** The non-blocking wait fails because there is no child left. *)
Definition no_children (w : wakeup) : Prop :=
  w_waitpid w = -1 /\ w_errno w = ECHILD.

(** What follows the loop in [main]. *)
Definition after_loop : M Z :=
  call EvFflush ;; call EvFreeReaders ;; call EvDetachAll ;; ret EXIT_SUCCESS.

(** [Args] as [main] hands it to [cl_parser], and as [cl_parser] leaves it. *)
Definition defaults (E : env) : cl_options :=
  mk_cl_options (-1) false false false " " 1000 (OUT_BUF_SIZE E)
    (STRACE_READER_PAGE_CNT_DEFAULT E).
Definition parsed (E : env) : cl_options := fst (o_cl_parser E (defaults E)).

(** The mode [check_args] resolves for the parsed options. *)
Definition resolved_mode (E : env) : res Z :=
  fst (check_args E (parsed E) (with_Args (fun _ => parsed E) initial)).

Definition is_sigkill (e : event) : bool :=
  match e with EvKill _ sig => sig =? SIGKILL | _ => false end.

Definition is_sigcont (e : event) : bool :=
  match e with EvKill _ sig => sig =? SIGCONT | _ => false end.

(** [P] holds at the step that resumes the child and at every later one. *)
Fixpoint since_resume (P : step -> Prop) (l : list step) : Prop :=
  match l with
  | [] => True
  | st :: l' =>
      if is_sigcont (ev st) then Forall P (st :: l') else since_resume P l'
  end.

(** ** Sample environments *)

(** A command-line parser that sets the pid, the command and the flags. *)
Definition parser (p : Z) (cmd ff dbg : bool) (a : cl_options) : cl_options * Z :=
  (mk_cl_options p cmd ff dbg (out_lf_fld_sep_ch a) (pr_arr_max a)
     (out_buf_size a) (strace_reader_page_cnt a), 1).

(** Everything succeeds; the pid 4242 is alive, the command starts as 777. *)
Definition env_ok (p : Z) (cmd ff : bool) (ws : list wakeup) : env :=
  mk_env 4096 64 (parser p cmd ff false) (fun q => if q =? 4242 then 0 else -1)
    true 0 777 true true true 2 2 0 0 true ws.

(** A command is started as 777; the header cannot be printed. *)
Definition env_header_fails : env :=
  mk_env 4096 64 (parser (-1) true false false) (fun _ => -1)
    true 0 777 true true true 2 2 1 0 true [].

(** A command is started as 777; the eBPF code cannot be generated. *)
Definition env_generate_fails : env :=
  mk_env 4096 64 (parser (-1) true false false) (fun _ => -1)
    true 0 777 false true true 2 2 0 0 true [].

(** A command is started as 777; the eBPF code does not compile. *)
Definition env_compile_fails : env :=
  mk_env 4096 64 (parser (-1) true false false) (fun _ => -1)
    true 0 777 true true false 2 2 0 0 true [].

(** A command is started as 777 and resumed; then the array of readers
    cannot be allocated. *)
Definition env_readers_fail : env :=
  mk_env 4096 64 (parser (-1) true false false) (fun _ => -1)
    true 0 777 true true true 2 2 0 0 false [].

(** A command is started as 777; no probe can be attached. *)
Definition env_attach_fails : env :=
  mk_env 4096 64 (parser (-1) true false false) (fun _ => -1)
    true 0 777 true true true 0 0 0 0 true [].

(** A state of the loop in the command mode, the child being 777. *)
Definition polling_777 : state :=
  mk_state (mk_cl_options 777 true false false " " 1000 4096 64)
    true 0 0 777 0 [].
Definition two_readers : bpf_ctx := mk_bpf_ctx true false 2.
Definition child_reaped : wakeup := mk_wakeup 0 0 777 0 0.

Definition quiet : wakeup := mk_wakeup 0 0 0 0 0.
Definition write_failed : wakeup := mk_wakeup 1 0 0 0 0.
Definition interrupted : wakeup := mk_wakeup 0 1 0 0 0.

(** ** Vocabulary of the further properties *)

(** The termination test of one iteration, as a function of the mode, the
    options and the wakeup. *)
Definition mode_test (tracing : Z) (a : cl_options) (w : wakeup) : bool :=
  if tracing =? TRACING_CMD then
    if ff_mode a then (w_waitpid w =? -1) && (w_errno w =? ECHILD)
    else w_waitpid w =? pid a
  else if tracing =? TRACING_PID then w_kill0 w =? -1
  else false.

(** The wakeup ends the loop: a flag is set or the test of the mode holds. *)
Definition stops (tracing : Z) (a : cl_options) (w : wakeup) : bool :=
  negb (w_OutputError w =? 0) || negb (w_AbortTracing w =? 0)
  || mode_test tracing a w.

(** The wakeups before the first one that ends the loop. *)
Fixpoint running (tracing : Z) (a : cl_options) (ws : list wakeup) : list wakeup :=
  match ws with
  | [] => []
  | w :: ws' => if stops tracing a w then [] else w :: running tracing a ws'
  end.

(** Number of events of a kind in a list. *)
Definition count_ev (f : event -> bool) (l : list event) : nat :=
  List.length (filter f l).

(** What a call of the loop looks like, for the context [b] and the
    options [a]. *)
Definition loop_call (tracing : Z) (b : bpf_ctx) (a : cl_options) (e : event) : bool :=
  match e with
  | EvPoll q => q =? pr_arr_qty b
  | EvWaitpid p o => (tracing =? TRACING_CMD) && (p =? -1) && (o =? WNOHANG)
  | EvKill p sig => (tracing =? TRACING_PID) && (p =? pid a) && (sig =? 0)
  | EvMsg _ _ => true
  | _ => false
  end.

Definition is_detach (e : event) : bool :=
  match e with EvDetachAll => true | _ => false end.
Definition is_header (e : event) : bool :=
  match e with EvPrintHeader => true | _ => false end.
Definition is_free_bpf_str (e : event) : bool :=
  match e with EvFreeBpfStr => true | _ => false end.
Definition is_generate (e : event) : bool :=
  match e with EvGenerateEbpf => true | _ => false end.

(** The output file cannot be set up. *)
Definition env_no_output (p : Z) (cmd : bool) : env :=
  mk_env 4096 64 (parser p cmd false false) (fun q => if q =? 4242 then 0 else -1)
    false 0 777 true true true 2 2 0 0 true [].

(** Follow-fork is asked for and [prctl] fails. *)
Definition env_prctl_fails : env :=
  mk_env 4096 64 (parser (-1) true true false) (fun _ => -1)
    true (-1) 777 true true true 2 2 0 0 true [].

(** The command cannot be started. *)
Definition env_start_fails : env :=
  mk_env 4096 64 (parser (-1) true false false) (fun _ => -1)
    true 0 (-1) true true true 2 2 0 0 true [].

(** A command is started as 777; the callbacks cannot be attached. *)
Definition env_callback_fails : env :=
  mk_env 4096 64 (parser (-1) true false false) (fun _ => -1)
    true 0 777 true true true 2 2 0 5 true [].

(** * Properties *)

(** ** The loop body *)

Section LoopBody.

Variables (tracing : Z) (b : bpf_ctx) (w : wakeup) (s : state).

Lemma loop_body_OutputError :
  w_OutputError w <> 0 ->
  loop_body tracing b w s
  = (Val None, log (EvMsg LvlError "error while writing to output") (polled b w s)).
Proof.
  intros H. apply Z.eqb_neq in H.
  unfold loop_body, perf_reader_poll, bind, call, modify, get, ERROR, ret.
  cbn. rewrite H. reflexivity.
Qed.

Lemma loop_body_AbortTracing :
  w_OutputError w = 0 -> w_AbortTracing w <> 0 ->
  loop_body tracing b w s
  = (Val None,
     log (EvMsg LvlInfo "Notice: terminated by signal. Exiting...")
         (polled b w s)).
Proof.
  intros H0 H. apply Z.eqb_neq in H.
  unfold loop_body, perf_reader_poll, bind, call, modify, get, INFO, ret.
  unfold polled. cbn. rewrite H0. cbn. rewrite H. reflexivity.
Qed.

Lemma loop_body_switch :
  w_OutputError w = 0 -> w_AbortTracing w = 0 ->
  loop_body tracing b w s
  = (v <- switch_tracing tracing w ;; ret (Some v)) (polled b w s).
Proof.
  intros H0 H1.
  unfold loop_body, perf_reader_poll, bind, call, modify, get, ret.
  unfold polled. cbn. rewrite H0. cbn. rewrite H1. reflexivity.
Qed.

End LoopBody.

(** ** What the loop can do to the state *)

Lemma polls_app (l1 l2 : list step) : polls (l1 ++ l2) = (polls l1 + polls l2)%nat.
Proof.
  unfold polls. rewrite map_app, filter_app, List.length_app. reflexivity.
Qed.

Lemma loop_steps_trans s1 s2 s3 l1 l2 :
  loop_steps s1 s2 l1 -> loop_steps s2 s3 l2 -> loop_steps s1 s3 (l1 ++ l2).
Proof.
  intros (A1 & O1 & P1 & T1 & F1) (A2 & O2 & P2 & T2 & F2).
  repeat split; try congruence.
  - rewrite T2, T1, app_assoc. reflexivity.
  - apply Forall_app. split; [exact F1|].
    rewrite P1 in F2. exact F2.
Qed.

Ltac split_ifs :=
  repeat match goal with
         | |- context [if ?c then _ else _] => destruct c eqn:?; cbn
         end.

Ltac close_steps :=
  cbn; repeat split;
  try (rewrite <- ?app_assoc; reflexivity);
  try (symmetry; apply app_nil_r);
  try (repeat constructor; cbn; auto).

Lemma switch_tracing_steps tracing w s :
  exists v steps,
    switch_tracing tracing w s = (Val v, snd (switch_tracing tracing w s)) /\
    (v = 0 \/ v = 1) /\
    loop_steps s (snd (switch_tracing tracing w s)) steps /\
    polls steps = 0%nat.
Proof.
  unfold switch_tracing, waitpid_any, bind, call, modify, get, ret,
    INFO, ERROR.
  cbn. split_ifs.
  all: do 2 eexists; split; [reflexivity|]; split; [auto|]; split;
    [unfold loop_steps; close_steps | ].
  all: try reflexivity.
Qed.

Lemma loop_steps_polled b w s :
  loop_steps s (polled b w s) [mk_step (EvPoll (pr_arr_qty b)) (PidToBeKilled s)].
Proof. unfold loop_steps, polled. close_steps. Qed.

Lemma loop_steps_log e s :
  loop_event e = true ->
  loop_steps s (log e s) [mk_step e (PidToBeKilled s)].
Proof. intros H. unfold loop_steps. close_steps. Qed.

Lemma loop_body_steps tracing b w s :
  exists r steps,
    loop_body tracing b w s = (Val r, snd (loop_body tracing b w s)) /\
    loop_steps s (snd (loop_body tracing b w s)) steps /\
    polls steps = 1%nat /\
    (flagged w -> r = None) /\
    (forall v, r = Some v -> v = 0 \/ v = 1).
Proof.
  destruct (Z.eq_dec (w_OutputError w) 0) as [Ho|Ho].
  - destruct (Z.eq_dec (w_AbortTracing w) 0) as [Ha|Ha].
    + rewrite loop_body_switch by assumption.
      destruct (switch_tracing_steps tracing w (polled b w s))
        as (v & steps & Hv & Hv01 & Hst & Hp).
      unfold bind. rewrite Hv. cbn.
      exists (Some v), ([mk_step (EvPoll (pr_arr_qty b)) (PidToBeKilled s)] ++ steps).
      refine (conj eq_refl (conj _ (conj _ (conj _ _)))).
      * eapply loop_steps_trans; [apply loop_steps_polled | exact Hst].
      * rewrite polls_app, Hp. reflexivity.
      * intros [F|F]; contradiction.
      * intros v' [= <-]. exact Hv01.
    + rewrite loop_body_AbortTracing by assumption. cbn.
      do 2 eexists.
      refine (conj eq_refl (conj _ (conj _ (conj (fun _ => eq_refl) _)))).
      * eapply loop_steps_trans; [apply loop_steps_polled |].
        apply loop_steps_log. reflexivity.
      * reflexivity.
      * discriminate.
  - rewrite loop_body_OutputError by assumption. cbn.
    do 2 eexists.
    refine (conj eq_refl (conj _ (conj _ (conj (fun _ => eq_refl) _)))).
    + eapply loop_steps_trans; [apply loop_steps_polled |].
      apply loop_steps_log. reflexivity.
    + reflexivity.
    + discriminate.
Qed.

Lemma loop_steps_blocked b s :
  loop_steps s (snd ((call (EvPoll (pr_arr_qty b)) ;; @halt unit Blocked) s))
             [mk_step (EvPoll (pr_arr_qty b)) (PidToBeKilled s)].
Proof. unfold loop_steps. close_steps. Qed.

Lemma while_loop_cons tracing b w ws s :
  while_loop tracing b (w :: ws) s
  = match loop_body tracing b w s with
    | (Val None, s') => (Val tt, s')
    | (Val (Some stop_tracing), s') =>
        if stop_tracing =? 0 then while_loop tracing b ws s' else (Val tt, s')
    | (Halt o, s') => (Halt o, s')
    end.
Proof.
  cbn [while_loop]. unfold bind, ret.
  destruct (loop_body tracing b w s) as [[[v|]|o] s']; try reflexivity.
  destruct (v =? 0); reflexivity.
Qed.

Ltac loop_body_cases tracing b w s r s1 steps Hst Hp Hn :=
  let Hr := fresh "Hr" in
  destruct (loop_body_steps tracing b w s) as (r & steps & Hr & Hst & Hp & Hn & _);
  destruct (loop_body tracing b w s) as [? s1]; cbn [snd] in Hr, Hst;
  injection Hr as ->.

(** The loop either ends normally or stays blocked in the poll call, and
    all it does to the state is to append loop steps to the log. *)
Lemma while_loop_steps tracing b ws :
  forall s, exists steps,
    (fst (while_loop tracing b ws s) = Val tt \/
     fst (while_loop tracing b ws s) = Halt Blocked) /\
    loop_steps s (snd (while_loop tracing b ws s)) steps /\
    (polls steps <= List.length ws + 1)%nat.
Proof.
  induction ws as [|w ws IH]; intros s.
  - eexists. split; [right; reflexivity|]. split.
    + apply loop_steps_blocked.
    + cbn. lia.
  - rewrite while_loop_cons.
    loop_body_cases tracing b w s r s1 steps Hst Hp Hn.
    destruct r as [v|].
    + destruct (v =? 0).
      * destruct (IH s1) as (steps' & Hf & Hst' & Hp').
        exists (steps ++ steps'). split; [exact Hf|]. split.
        -- eapply loop_steps_trans; eassumption.
        -- rewrite polls_app. cbn [List.length]. lia.
      * exists steps. split; [left; reflexivity|]. split; [exact Hst|].
        cbn [List.length]. lia.
    + exists steps. split; [left; reflexivity|]. split; [exact Hst|].
      cbn [List.length]. lia.
Qed.

(** A wakeup that finds a flag set ends the loop, at that wakeup at the
    latest. *)
Lemma while_loop_flagged tracing b pre w post :
  flagged w ->
  forall s, exists steps,
    fst (while_loop tracing b (pre ++ w :: post) s) = Val tt /\
    loop_steps s (snd (while_loop tracing b (pre ++ w :: post) s)) steps /\
    (1 <= polls steps <= List.length pre + 1)%nat.
Proof.
  intros Hw. induction pre as [|w0 pre IH]; intros s.
  - cbn [app]. rewrite while_loop_cons.
    loop_body_cases tracing b w s r s1 steps Hst Hp Hn.
    rewrite (Hn Hw).
    exists steps. split; [reflexivity|]. split; [exact Hst|]. cbn. lia.
  - cbn [app]. rewrite while_loop_cons.
    loop_body_cases tracing b w0 s r s1 steps Hst Hp Hn.
    destruct r as [v|].
    + destruct (v =? 0).
      * destruct (IH s1) as (steps' & Hf & Hst' & Hp').
        exists (steps ++ steps'). split; [exact Hf|]. split.
        -- eapply loop_steps_trans; eassumption.
        -- rewrite polls_app. cbn [List.length]. lia.
      * exists steps. split; [reflexivity|]. split; [exact Hst|].
        cbn [List.length]. lia.
    + exists steps. split; [reflexivity|]. split; [exact Hst|].
      cbn [List.length]. lia.
Qed.

(** ** Running [main] symbolically *)

#[local] Arguments with_Args _ _ /.
#[local] Arguments with_Out_lf _ _ /.
#[local] Arguments with_flags _ _ _ /.
#[local] Arguments with_PidToBeKilled _ _ /.
#[local] Arguments with_errno _ _ /.
#[local] Arguments log _ _ /.
#[local] Arguments set_pid _ _ /.
#[local] Arguments set_out_lf_fld_sep_ch _ _ /.
#[local] Arguments set_pr_arr_max _ _ /.
#[local] Arguments set_out_buf_size _ _ /.
#[local] Arguments set_strace_reader_page_cnt _ _ /.

(** The condition on which the computation at the head of [t] waits. *)
Ltac find_scrut t :=
  lazymatch t with
  | match ?x with _ => _ end => find_scrut x
  | ?f ?a => lazymatch f with
             | match ?x with _ => _ end => find_scrut x
             | _ => t
             end
  | _ => t
  end.

(** One branch point of the program, in program order, in a goal
    [r = computation -> _]; the loop is left alone. *)
Ltac exec_head :=
  lazymatch goal with
  | |- _ = ?X -> _ =>
      let c := find_scrut X in
      lazymatch c with
      | while_loop _ _ _ _ => fail
      | (_, _) => fail
      | _ => destruct c eqn:?; cbn
      end
  end.

(** Opens [run E]: the oracle becomes its fields, the parsed options
    become their fields. *)
Ltac open_run E p cmd ff :=
  destruct E as [obs pgc parser kill0 setup prctl start gen cctx comp att
                 qty hdr cb crd ws];
  unfold resolved_mode, parsed, defaults, events, run, process_end, main,
    check_args,
    error_detach, error_kill, bind, call, modify, get, ret, ERROR, INFO,
    WARNING, exit, halt;
  cbn;
  destruct (parser _) as [[p cmd ff dbg sep mx ob pc] optind];
  cbn.

(** Names the run [r] and leaves [r = computation -> _] as the goal. *)
Ltac start_run E p cmd ff :=
  let r := fresh "r" in
  let Hr := fresh "Hr" in
  remember (run E) as r eqn:Hr; revert Hr;
  open_run E p cmd ff.

(** Takes the next hypothesis of the statement and uses it as a fact
    about an answer of the oracle before the run is split. *)
Ltac take H :=
  let Hr := fresh "Hr" in
  intros Hr H; revert Hr; rewrite ?H; cbn.

(** Ends a run that enters the loop with what [while_loop_steps] says
    about the loop. *)
Ltac exec_loop steps HF Hp :=
  match goal with
  | |- context [while_loop ?t ?b ?ws ?s] =>
      let Hf := fresh "Hf" in
      let HA := fresh "HA" in let HO := fresh "HO" in
      let HP := fresh "HP" in let HT := fresh "HT" in
      let s' := fresh "s'" in let r := fresh "r" in
      destruct (while_loop_steps t b ws s)
        as (steps & Hf & (HA & HO & HP & HT & HF) & Hp);
      destruct (while_loop t b ws s) as [r s'];
      cbn in Hf, HA, HO, HP, HT, HF;
      destruct Hf; subst r; cbn; intros ->; cbn; rewrite ?HT, ?HP, ?HA, ?HO
  end.

(** The same when a wakeup of the run finds a flag set. *)
Ltac exec_loop_flagged Hfl steps HF Hp :=
  match goal with
  | |- context [while_loop ?t ?b (?pre ++ ?w :: ?post) ?s] =>
      let Hf := fresh "Hf" in
      let HA := fresh "HA" in let HO := fresh "HO" in
      let HP := fresh "HP" in let HT := fresh "HT" in
      let s' := fresh "s'" in let r := fresh "r" in
      destruct (while_loop_flagged t b pre w post Hfl s)
        as (steps & Hf & (HA & HO & HP & HT & HF) & Hp);
      destruct (while_loop t b (pre ++ w :: post) s) as [r s'];
      cbn in Hf, HA, HO, HP, HT, HF;
      subst r; cbn; intros ->; cbn; rewrite ?HT, ?HP, ?HA, ?HO;
      rewrite <- ?app_assoc; cbn
  end.

Lemma loop_event_not_sigcont e : loop_event e = true -> is_sigcont e = false.
Proof.
  destruct e; cbn; try discriminate; try reflexivity.
  intros H. apply Z.eqb_eq in H. subst. reflexivity.
Qed.

Lemma loop_event_not_sigkill e : loop_event e = true -> is_sigkill e = false.
Proof.
  destruct e; cbn; try discriminate; try reflexivity.
  intros H. apply Z.eqb_eq in H. subst. reflexivity.
Qed.

Lemma Forall_loop_steps (P : step -> Prop) k steps :
  (forall st, marker st = k -> loop_event (ev st) = true -> P st) ->
  Forall (fun st => marker st = k /\ loop_event (ev st) = true) steps ->
  Forall P steps.
Proof.
  intros HP HF. eapply Forall_impl; [|exact HF].
  intros st [Hm He]. auto.
Qed.

Ltac solve_Forall HF :=
  repeat first
    [ apply Forall_nil
    | apply Forall_cons; [cbn; auto |]
    | apply Forall_app; split
    | solve [ eapply Forall_loop_steps; [|exact HF]; cbn; intros;
              repeat split; auto using loop_event_not_sigkill ] ].

Lemma app_nil_start {A} (l : list A) : l = [] ++ l.
Proof. reflexivity. Qed.

Lemma cons_app_intro {A} (a : A) l pre suf :
  l = pre ++ suf -> a :: l = (a :: pre) ++ suf.
Proof. intros ->. reflexivity. Qed.

(** Splits a list that ends with a given suffix. *)
Ltac find_prefix :=
  first [ apply app_nil_start | reflexivity
        | eapply cons_app_intro; find_prefix ].

Ltac gtb_true p :=
  let H := fresh "Hgt" in
  assert (H : (p >? 0) = true) by (apply Z.gtb_lt; lia);
  rewrite ?H; cbn.

Ltac not_in := cbn; intuition discriminate.
Ltac in_list := cbn; repeat first [left; reflexivity | right].

(** ** Conflicting options and a dead target *)

(** C5: when the parsed options hold both a command and a target pid
    (a pid greater than zero), the process reports the conflict, prints the
    usage text and exits with [EXIT_FAILURE]; the parser is the only call
    made before: the output file is never set up and no command is
    started. *)
Theorem C5_command_and_pid_rejected (E : env) :
  command (parsed E) = true -> 0 < pid (parsed E) ->
  fst (run E) = Exited EXIT_FAILURE /\
  events (snd (run E))
  = [EvClParser; EvMsg LvlError "command and PID cannot be set together";
     EvHelp] /\
  ~ In EvSetupOutLf (events (snd (run E))) /\
  ~ In EvStartCommand (events (snd (run E))) /\
  Out_lf (snd (run E)) = false.
Proof.
  open_run E p cmd ff. intros -> Hp. gtb_true p.
  repeat split; not_in.
Qed.

Lemma C5_witness :
  command (parsed (env_ok 4242 true false [])) = true /\
  0 < pid (parsed (env_ok 4242 true false [])) /\
  fst (run (env_ok 4242 true false [])) = Exited EXIT_FAILURE.
Proof.
  split; [reflexivity|]. split; [reflexivity|].
  apply (C5_command_and_pid_rejected (env_ok 4242 true false []));
    reflexivity.
Defined.

(** C6: when the parsed options hold a target pid (greater than zero) and
    the zero-signal probe [kill(pid, 0)] answers -1, the process exits with
    [EXIT_FAILURE] without having set up the output file and without having
    attached a probe. *)
Theorem C6_dead_target_rejected (E : env) :
  0 < pid (parsed E) -> o_kill0 E (pid (parsed E)) = -1 ->
  fst (run E) = Exited EXIT_FAILURE /\
  ~ In EvSetupOutLf (events (snd (run E))) /\
  ~ In EvAttachProbes (events (snd (run E))) /\
  Out_lf (snd (run E)) = false.
Proof.
  open_run E p cmd ff. intros Hp Hk. gtb_true p.
  destruct cmd; cbn.
  - repeat split; not_in.
  - rewrite Hk. cbn. repeat split; not_in.
Qed.

Lemma C6_witness :
  0 < pid (parsed (env_ok 5 false false [])) /\
  o_kill0 (env_ok 5 false false []) (pid (parsed (env_ok 5 false false []))) = -1 /\
  fst (run (env_ok 5 false false [])) = Exited EXIT_FAILURE.
Proof.
  split; [reflexivity|]. split; [reflexivity|].
  apply (C6_dead_target_rejected (env_ok 5 false false [])); reflexivity.
Defined.

(** ** The kill marker without a command *)

Lemma no_command_marker_zero (E : env) :
  command (parsed E) = false ->
  Forall (fun st => marker st = 0 /\ is_sigkill (ev st) = false)
         (trace (snd (run E))) /\
  PidToBeKilled (snd (run E)) = 0.
Proof.
  start_run E p cmd ff. take Hc.
  repeat exec_head.
  all: try (intros ->; split; [repeat constructor | reflexivity]).
  all: exec_loop steps HF Hp.
  all: split; [solve_Forall HF | reflexivity].
Qed.

(** C10: when [check_args] resolves the mode to [TRACING_ALL] or
    [TRACING_PID], [PidToBeKilled] is zero at every call of the run and at
    its end, and no [kill(_, SIGKILL)] is ever made. *)
Theorem C10_no_kill_without_command (E : env) (m : Z) :
  m = TRACING_ALL \/ m = TRACING_PID ->
  resolved_mode E = Val m ->
  Forall (fun st => marker st = 0) (trace (snd (run E))) /\
  PidToBeKilled (snd (run E)) = 0 /\
  Forall (fun st => is_sigkill (ev st) = false) (trace (snd (run E))).
Proof.
  intros Hm Hr.
  assert (Hc : command (parsed E) = false).
  { revert Hr. unfold resolved_mode, check_args, bind, call, modify, get, ret,
      ERROR, WARNING, exit, halt.
    destruct (command (parsed E)); [|reflexivity].
    cbn. destruct (pid (parsed E) >? 0); cbn.
    - discriminate.
    - intros [= <-]. destruct Hm; discriminate. }
  destruct (no_command_marker_zero E Hc) as [HF HP].
  split; [|split; [exact HP|]].
  - eapply Forall_impl; [|exact HF]. cbn. tauto.
  - eapply Forall_impl; [|exact HF]. cbn. tauto.
Qed.

Lemma C10_witness :
  resolved_mode (env_ok 4242 false true [quiet; interrupted]) = Val TRACING_PID /\
  PidToBeKilled (snd (run (env_ok 4242 false true [quiet; interrupted]))) = 0.
Proof.
  split; [reflexivity|].
  apply (C10_no_kill_without_command
           (env_ok 4242 false true [quiet; interrupted]) TRACING_PID).
  - right. reflexivity.
  - reflexivity.
Defined.

(** ** Failure of the header *)

(** C8: when the run gets as far as printing the header and
    [Print_header] reports an error, [detach_all] is called after the error
    message, then the marked child (if [PidToBeKilled] is not zero) is sent
    [SIGKILL], and the process exits with [EXIT_FAILURE].  The probes were
    attached before, and nothing was detached before. *)
Theorem C8_header_failure (E : env) :
  o_Print_header E <> 0 ->
  In EvPrintHeader (events (snd (run E))) ->
  fst (run E) = Exited EXIT_FAILURE /\
  PidToBeKilled (snd (run E))
  = (if command (parsed E) then o_start_command E else 0) /\
  exists pre,
    events (snd (run E))
    = pre ++ [EvPrintHeader; EvMsg LvlError "error while printing header";
              EvDetachAll]
          ++ (if PidToBeKilled (snd (run E)) =? 0 then []
              else [EvKill (PidToBeKilled (snd (run E))) SIGKILL]) /\
    In EvAttachProbes pre /\ ~ In EvDetachAll pre.
Proof.
  start_run E p cmd ff.
  intros Hr Hh; revert Hr; apply Z.eqb_neq in Hh; rewrite ?Hh; cbn.
  repeat exec_head.
  all: intros ->; cbn.
  all: try (intros HIn; exfalso; revert HIn; not_in).
  all: intros _; split; [reflexivity|]; split; [reflexivity|].
  all: try match goal with
           | H : (?k =? 0) = _ |- context [?k =? 0] => rewrite H
           end; cbn.
  all: eexists; split; [find_prefix|]; split; not_in.
Qed.

Lemma C8_witness :
  o_Print_header env_header_fails <> 0 /\
  In EvPrintHeader (events (snd (run env_header_fails))) /\
  fst (run env_header_fails) = Exited EXIT_FAILURE /\
  In (EvKill 777 SIGKILL) (events (snd (run env_header_fails))).
Proof.
  assert (H0 : o_Print_header env_header_fails <> 0) by discriminate.
  assert (H1 : In EvPrintHeader (events (snd (run env_header_fails))))
    by (vm_compute; in_list).
  split; [exact H0|]. split; [exact H1|].
  destruct (C8_header_failure env_header_fails H0 H1) as (Hx & _ & pre & He & _).
  split; [exact Hx|].
  rewrite He. apply in_or_app. right. vm_compute. in_list.
Defined.

(** ** A flag found set by a wakeup *)

Lemma flag_ends_run (E : env) pre w post :
  o_wakeups E = pre ++ w :: post -> flagged w ->
  (1 <= polls (trace (snd (run E))))%nat ->
  fst (run E) = Exited EXIT_SUCCESS /\
  (exists l, events (snd (run E)) = l ++ [EvFflush; EvFreeReaders; EvDetachAll]) /\
  (polls (trace (snd (run E))) <= List.length pre + 1)%nat /\
  Forall (fun st => is_sigkill (ev st) = false) (trace (snd (run E))).
Proof.
  start_run E p cmd ff. take Hws. intros Hr Hfl. revert Hr.
  repeat exec_head.
  all: try (intros -> Hpoll; exfalso; revert Hpoll; cbn; lia).
  all: exec_loop_flagged Hfl steps HF Hp.
  all: intros _; split; [reflexivity|]; split; [|split].
  all: try (eexists; rewrite map_app; find_prefix).
  all: try solve_Forall HF.
  all: unfold polls in *; rewrite map_app, filter_app, List.length_app; cbn; lia.
Qed.

(** C7: when the run is in the polling loop and a wakeup finds
    [AbortTracing] set, whatever the mode, the loop ends at that wakeup at
    the latest, the output is flushed, [detach_all] is the last call, no
    [SIGKILL] is sent and the process exits with [EXIT_SUCCESS]. *)
Theorem C7_cancellation_is_graceful (E : env) pre w post :
  o_wakeups E = pre ++ w :: post -> w_AbortTracing w <> 0 ->
  (1 <= polls (trace (snd (run E))))%nat ->
  fst (run E) = Exited EXIT_SUCCESS /\
  (exists l, events (snd (run E)) = l ++ [EvFflush; EvFreeReaders; EvDetachAll]) /\
  (polls (trace (snd (run E))) <= List.length pre + 1)%nat /\
  Forall (fun st => is_sigkill (ev st) = false) (trace (snd (run E))).
Proof.
  intros Hws Hw. apply flag_ends_run with (w := w) (post := post).
  - exact Hws.
  - right. exact Hw.
Qed.

Lemma C7_witness :
  o_wakeups (env_ok (-1) false false [quiet; interrupted; quiet])
  = [quiet] ++ interrupted :: [quiet] /\
  w_AbortTracing interrupted <> 0 /\
  fst (run (env_ok (-1) false false [quiet; interrupted; quiet]))
  = Exited EXIT_SUCCESS.
Proof.
  split; [reflexivity|]. split; [discriminate|].
  apply (C7_cancellation_is_graceful
           (env_ok (-1) false false [quiet; interrupted; quiet])
           [quiet] interrupted [quiet]).
  - reflexivity.
  - discriminate.
  - vm_compute. lia.
Defined.

(** C1, as the code has it: when the run is in the polling loop and a
    wakeup finds [OutputError] set, the loop ends at that wakeup at the
    latest, the output is flushed, [detach_all] is the last call, and the
    process exits with [EXIT_SUCCESS], as for any other end of the loop. *)
Theorem C1_output_error_ends_loop (E : env) pre w post :
  o_wakeups E = pre ++ w :: post -> w_OutputError w <> 0 ->
  (1 <= polls (trace (snd (run E))))%nat ->
  fst (run E) = Exited EXIT_SUCCESS /\
  (exists l, events (snd (run E)) = l ++ [EvFflush; EvFreeReaders; EvDetachAll]) /\
  (polls (trace (snd (run E))) <= List.length pre + 1)%nat.
Proof.
  intros Hws Hw Hp.
  destruct (flag_ends_run E pre w post Hws (or_introl Hw) Hp) as (H1 & H2 & H3 & _).
  auto.
Qed.

Lemma C1_witness :
  o_wakeups (env_ok 4242 false false [quiet; write_failed])
  = [quiet] ++ write_failed :: [] /\
  w_OutputError write_failed <> 0 /\
  fst (run (env_ok 4242 false false [quiet; write_failed]))
  = Exited EXIT_SUCCESS.
Proof.
  split; [reflexivity|]. split; [discriminate|].
  apply (C1_output_error_ends_loop
           (env_ok 4242 false false [quiet; write_failed])
           [quiet] write_failed []).
  - reflexivity.
  - discriminate.
  - vm_compute. lia.
Defined.

(** C1 as stated fails: in the run below the first wakeup finds
    [OutputError] set while the process is polling; the loop ends and the
    exit status is 0, not a failure status. *)
Lemma C1_counterexample :
  o_wakeups (env_ok (-1) false false [write_failed]) = [] ++ write_failed :: [] /\
  w_OutputError write_failed <> 0 /\
  (1 <= polls (trace (snd (run (env_ok (-1) false false [write_failed])))))%nat /\
  fst (run (env_ok (-1) false false [write_failed])) = Exited 0 /\
  ~ (exists status,
        fst (run (env_ok (-1) false false [write_failed])) = Exited status /\
        status <> 0).
Proof.
  split; [reflexivity|]. split; [discriminate|].
  split; [vm_compute; lia|]. split; [reflexivity|].
  intros (status & H & Hn). vm_compute in H.
  injection H as <-. apply Hn. reflexivity.
Qed.

(** ** The kill marker with a command *)

(** C3, as the code has it: in the command mode [PidToBeKilled] is set to
    the started pid and never cleared.  The only process sent [SIGCONT] is
    the started child, and only after the callbacks were attached with
    result 0; at the resume and at every later call the marker still holds
    the started pid; and when the array of readers cannot be allocated
    after the resume, [detach_all] is called, the resumed child is sent
    [SIGKILL] (for a pid other than 0) and the process exits with
    [EXIT_FAILURE]. *)
Theorem C3_marker_is_never_cleared (E : env) :
  resolved_mode E = Val TRACING_CMD ->
  (o_start_command E <> -1 -> In EvStartCommand (events (snd (run E))) ->
   PidToBeKilled (snd (run E)) = o_start_command E) /\
  Forall (fun st => is_sigcont (ev st) = true ->
                    ev st = EvKill (o_start_command E) SIGCONT)
         (trace (snd (run E))) /\
  (In (EvKill (o_start_command E) SIGCONT) (events (snd (run E))) ->
   o_attach_callback E = 0 /\ In EvAttachCallback (events (snd (run E)))) /\
  since_resume (fun st => marker st = o_start_command E) (trace (snd (run E))) /\
  (In (EvKill (o_start_command E) SIGCONT) (events (snd (run E))) ->
   o_calloc_readers E = false ->
   fst (run E) = Exited EXIT_FAILURE /\
   exists l, events (snd (run E))
             = l ++ [EvDetachAll]
                 ++ (if o_start_command E =? 0 then []
                     else [EvKill (o_start_command E) SIGKILL])).
Proof.
  start_run E p cmd ff.
  intros Hr Hm; revert Hr.
  destruct cmd; destruct (p >? 0) eqn:Hgt; cbn in Hm; try discriminate Hm;
    try (destruct (kill0 p =? -1); discriminate Hm); cbn.
  repeat exec_head.
  all: try exec_loop steps HF Hp.
  all: try intros ->; cbn.
  all: split; [|split; [|split; [|split]]].
  (* the marker holds the started pid at the end *)
  all: try (intros Hs HIn;
            first [ reflexivity
                  | exfalso; apply Hs; apply Z.eqb_eq; assumption
                  | exfalso; revert HIn; not_in ]).
  (* who is resumed *)
  all: try solve [ repeat first
         [ apply Forall_nil
         | apply Forall_cons;
           [cbn; intros; first [discriminate | reflexivity] |]
         | apply Forall_app; split
         | eapply Forall_loop_steps; [|exact HF]; cbn;
           intros ? ? He Hs; apply loop_event_not_sigcont in He; congruence ] ].
  (* the resume comes after the callbacks *)
  all: try (intros HIn;
            first [ split; [ apply Z.eqb_eq, negb_false_iff; assumption
                           | solve [in_list] ]
                  | exfalso; revert HIn; not_in ]).
  (* from the resume on *)
  all: try first [ exact I | solve [solve_Forall HF] ].
  (* abort after the resume *)
  all: intros HIn Hcrd;
       first [ match goal with
               | H : negb _ = false |- _ => rewrite Hcrd in H; discriminate H
               end
             | split;
               [ reflexivity
               | try match goal with
                     | H : (?k =? 0) = _ |- context [?k =? 0] => rewrite H
                     end; eexists; find_prefix ]
             | exfalso; revert HIn; not_in ].
Qed.

Lemma C3_witness :
  resolved_mode env_readers_fail = Val TRACING_CMD /\
  since_resume (fun st => marker st = 777) (trace (snd (run env_readers_fail))) /\
  PidToBeKilled (snd (run env_readers_fail)) = 777.
Proof.
  assert (Hm : resolved_mode env_readers_fail = Val TRACING_CMD) by reflexivity.
  destruct (C3_marker_is_never_cleared env_readers_fail Hm)
    as (H1 & _ & _ & H4 & _).
  split; [exact Hm|]. split; [exact H4|].
  apply H1.
  - discriminate.
  - vm_compute. in_list.
Defined.

(** C3 as stated fails.  In the first run the child 777 is resumed, then
    the array of readers cannot be allocated: the marker was not cleared
    and the abort path sends [SIGKILL] to the resumed child.  In the second
    run nothing fails and the marker still holds 777 at the exit. *)
Lemma C3_counterexample :
  resolved_mode env_readers_fail = Val TRACING_CMD /\
  (exists l1 l2,
      events (snd (run env_readers_fail)) = l1 ++ EvKill 777 SIGCONT :: l2 /\
      In EvAttachCallback l1 /\
      In (EvKill 777 SIGKILL) l2) /\
  PidToBeKilled (snd (run env_readers_fail)) <> 0 /\
  fst (run (env_ok (-1) true false [interrupted])) = Exited EXIT_SUCCESS /\
  In (EvKill 777 SIGCONT) (events (snd (run (env_ok (-1) true false [interrupted])))) /\
  PidToBeKilled (snd (run (env_ok (-1) true false [interrupted]))) <> 0.
Proof.
  split; [reflexivity|]. split.
  - eexists. exists [EvCallocReaders; EvMsg LvlError "out of memory";
                     EvDetachAll; EvKill 777 SIGKILL].
    split; [vm_compute; find_prefix|]. split; in_list.
  - split; [vm_compute; discriminate|]. split; [reflexivity|].
    split; [vm_compute; in_list | vm_compute; discriminate].
Qed.

(** ** Aborts that skip the kill *)

(** C2 at the failing inputs: a command was started as 777 and is still
    stopped; the generation (first run) or the compilation (second run) of
    the eBPF code fails.  The process returns [EXIT_FAILURE] with the marker
    set and without a single [kill]. *)
Theorem C2_early_return_leaves_child :
  resolved_mode env_generate_fails = Val TRACING_CMD /\
  fst (run env_generate_fails) = Exited EXIT_FAILURE /\
  In EvStartCommand (events (snd (run env_generate_fails))) /\
  PidToBeKilled (snd (run env_generate_fails)) = 777 /\
  (forall q sig, ~ In (EvKill q sig) (events (snd (run env_generate_fails)))) /\
  resolved_mode env_compile_fails = Val TRACING_CMD /\
  fst (run env_compile_fails) = Exited EXIT_FAILURE /\
  In EvStartCommand (events (snd (run env_compile_fails))) /\
  PidToBeKilled (snd (run env_compile_fails)) = 777 /\
  (forall q sig, ~ In (EvKill q sig) (events (snd (run env_compile_fails)))).
Proof.
  repeat split; try reflexivity; try (vm_compute; in_list).
  all: intros q sig; vm_compute; intuition discriminate.
Qed.

(** The sibling path: when no probe can be attached the started child is
    killed before the process returns. *)
Example attach_failure_kills_child :
  fst (run env_attach_fails) = Exited EXIT_FAILURE /\
  In (EvKill 777 SIGKILL) (events (snd (run env_attach_fails))).
Proof. split; [reflexivity | vm_compute; in_list]. Qed.

(** ** The loop as [main] enters it *)

(** A run that polls at all has come through the whole start-up: the loop
    runs with the mode [check_args] resolved, and in the command mode
    [Args.pid] is the pid of the started command. *)
Lemma loop_entry (E : env) :
  (1 <= polls (trace (snd (run E))))%nat ->
  exists m b s0,
    resolved_mode E = Val m /\
    pr_arr_qty b = o_pr_arr_qty E /\
    Args s0 = (if command (parsed E)
               then set_pid (o_start_command E) (parsed E) else parsed E) /\
    PidToBeKilled s0 = (if command (parsed E) then o_start_command E else 0) /\
    polls (trace s0) = 0%nat /\
    run E = process_end ((while_loop m b (o_wakeups E) ;; after_loop) s0).
Proof.
  start_run E p cmd ff.
  repeat exec_head.
  all: try (intros -> Hpoll; exfalso; revert Hpoll; cbn; lia).
  all: match goal with
       | |- context [while_loop ?t ?b ?ws ?s] =>
           intros -> _; exists t, b, s
       end.
  all: repeat split; reflexivity.
Qed.

(** ** The termination test of the loop *)

Lemma ends_loop_iff tracing b w s v :
  fst (loop_body tracing b w s) = Val (Some v) ->
  ends_loop tracing b w s <-> v <> 0.
Proof.
  intros H. unfold ends_loop. split.
  - intros He. specialize (He []). rewrite while_loop_cons in He.
    destruct (loop_body tracing b w s) as [r s']. cbn in H. subst r.
    destruct (v =? 0) eqn:Hv.
    + cbn in He. discriminate He.
    + apply Z.eqb_neq. exact Hv.
  - intros Hv ws. rewrite while_loop_cons.
    destruct (loop_body tracing b w s) as [r s']. cbn in H. subst r.
    apply Z.eqb_neq in Hv. rewrite Hv. reflexivity.
Qed.

Section TerminationTest.

Variables (b : bpf_ctx) (w : wakeup) (s : state).
Hypotheses (Ho : w_OutputError w = 0) (Ha : w_AbortTracing w = 0).

Lemma loop_body_ALL :
  loop_body TRACING_ALL b w s = (Val (Some 0), polled b w s).
Proof. rewrite loop_body_switch by assumption. reflexivity. Qed.

Lemma loop_body_PID :
  fst (loop_body TRACING_PID b w s)
  = Val (Some (if w_kill0 w =? -1 then 1 else 0)) /\
  exists rest,
    trace (snd (loop_body TRACING_PID b w s))
    = trace s ++ [mk_step (EvPoll (pr_arr_qty b)) (PidToBeKilled s);
                  mk_step (EvKill (pid (Args s)) 0) (PidToBeKilled s)] ++ rest.
Proof.
  rewrite loop_body_switch by assumption.
  unfold switch_tracing, bind, call, modify, get, ret, ERROR, polled. cbn.
  destruct (w_kill0 w =? -1); cbn; (split; [reflexivity|]);
    eexists; rewrite <- !app_assoc; cbn; reflexivity.
Qed.

Lemma loop_body_CMD :
  ff_mode (Args s) = false ->
  fst (loop_body TRACING_CMD b w s)
  = Val (Some (if w_waitpid w =? pid (Args s) then 1 else 0)) /\
  exists rest,
    trace (snd (loop_body TRACING_CMD b w s))
    = trace s ++ [mk_step (EvPoll (pr_arr_qty b)) (PidToBeKilled s);
                  mk_step (EvWaitpid (-1) WNOHANG) (PidToBeKilled s)] ++ rest.
Proof.
  intros Hff.
  rewrite loop_body_switch by assumption.
  unfold switch_tracing, waitpid_any, bind, call, modify, get, ret, INFO, polled.
  cbn. rewrite Hff. cbn.
  destruct (w_waitpid w =? -1); cbn;
    destruct (w_waitpid w =? pid (Args s)); cbn; (split; [reflexivity|]);
    eexists; rewrite <- !app_assoc; cbn; reflexivity.
Qed.

Lemma loop_body_CMD_ff :
  ff_mode (Args s) = true ->
  fst (loop_body TRACING_CMD b w s)
  = Val (Some (if (w_waitpid w =? -1) && (w_errno w =? ECHILD) then 1 else 0)) /\
  exists rest,
    trace (snd (loop_body TRACING_CMD b w s))
    = trace s ++ [mk_step (EvPoll (pr_arr_qty b)) (PidToBeKilled s);
                  mk_step (EvWaitpid (-1) WNOHANG) (PidToBeKilled s)] ++ rest.
Proof.
  intros Hff.
  rewrite loop_body_switch by assumption.
  unfold switch_tracing, waitpid_any, bind, call, modify, get, ret, INFO, polled.
  unfold ECHILD. cbn. rewrite Hff. cbn.
  destruct (w_waitpid w =? -1) eqn:H1; cbn; rewrite ?H1; cbn;
    try destruct (w_errno w =? 10); cbn; (split; [reflexivity|]);
    eexists; rewrite <- !app_assoc; cbn; reflexivity.
Qed.

End TerminationTest.

Lemma all_mode_never_stops b ws :
  Forall unflagged ws ->
  forall s, fst (while_loop TRACING_ALL b ws s) = Halt Blocked.
Proof.
  induction 1 as [|w ws [Ho Ha] _ IH]; intros s.
  - reflexivity.
  - rewrite while_loop_cons, loop_body_ALL by assumption. cbn. apply IH.
Qed.

(** C4: in an iteration whose wakeup finds both flags clear, the loop
    ends according to the mode.  In the mode ALL it does not end, and over
    any number of such wakeups the process stays in the poll call.  In the
    mode COMMAND without follow-fork it ends exactly when
    [waitpid(-1, NULL, WNOHANG)] returns [Args.pid], the pid of the started
    command (see [loop_entry]); with follow-fork, exactly when that call
    returns -1 with [errno = ECHILD].  In the mode PID it ends exactly when
    [kill(Args.pid, 0)] returns -1.  These calls are the first after the
    poll. *)
Theorem C4_termination_test_by_mode (b : bpf_ctx) (w : wakeup) (s : state) :
  unflagged w ->
  (~ ends_loop TRACING_ALL b w s /\
   forall ws, Forall unflagged ws ->
              fst (while_loop TRACING_ALL b ws s) = Halt Blocked) /\
  (ff_mode (Args s) = false -> 0 < pid (Args s) ->
   (ends_loop TRACING_CMD b w s <-> reaps w (pid (Args s))) /\
   exists rest,
     trace (snd (loop_body TRACING_CMD b w s))
     = trace s ++ [mk_step (EvPoll (pr_arr_qty b)) (PidToBeKilled s);
                   mk_step (EvWaitpid (-1) WNOHANG) (PidToBeKilled s)] ++ rest) /\
  (ff_mode (Args s) = true ->
   (ends_loop TRACING_CMD b w s <-> no_children w) /\
   exists rest,
     trace (snd (loop_body TRACING_CMD b w s))
     = trace s ++ [mk_step (EvPoll (pr_arr_qty b)) (PidToBeKilled s);
                   mk_step (EvWaitpid (-1) WNOHANG) (PidToBeKilled s)] ++ rest) /\
  ((ends_loop TRACING_PID b w s <-> w_kill0 w = -1) /\
   exists rest,
     trace (snd (loop_body TRACING_PID b w s))
     = trace s ++ [mk_step (EvPoll (pr_arr_qty b)) (PidToBeKilled s);
                   mk_step (EvKill (pid (Args s)) 0) (PidToBeKilled s)] ++ rest).
Proof.
  intros [Ho Ha]. split; [|split; [|split]].
  - split.
    + rewrite (ends_loop_iff TRACING_ALL b w s 0).
      * intros H. apply H. reflexivity.
      * rewrite loop_body_ALL by assumption. reflexivity.
    + intros ws Hws. apply all_mode_never_stops. exact Hws.
  - intros Hff Hpid.
    destruct (loop_body_CMD b w s Ho Ha Hff) as [Hv Ht].
    split; [|exact Ht].
    rewrite (ends_loop_iff _ _ _ _ _ Hv). unfold reaps.
    destruct (Z.eqb_spec (w_waitpid w) (pid (Args s))); split; intros H;
      try lia; try discriminate.
  - intros Hff.
    destruct (loop_body_CMD_ff b w s Ho Ha Hff) as [Hv Ht].
    split; [|exact Ht].
    rewrite (ends_loop_iff _ _ _ _ _ Hv). unfold no_children.
    destruct (Z.eqb_spec (w_waitpid w) (-1));
      destruct (Z.eqb_spec (w_errno w) ECHILD); cbn; split; intros H;
      try tauto; try discriminate; try (exfalso; apply H; reflexivity).
  - destruct (loop_body_PID b w s Ho Ha) as [Hv Ht].
    split; [|exact Ht].
    rewrite (ends_loop_iff _ _ _ _ _ Hv).
    destruct (Z.eqb_spec (w_kill0 w) (-1)); split; intros H;
      try tauto; try discriminate; try (exfalso; apply H; reflexivity).
Qed.

Lemma C4_witness :
  unflagged child_reaped /\
  ends_loop TRACING_CMD two_readers child_reaped polling_777 /\
  ~ ends_loop TRACING_ALL two_readers child_reaped polling_777.
Proof.
  assert (Hu : unflagged child_reaped) by (split; reflexivity).
  destruct (C4_termination_test_by_mode two_readers child_reaped polling_777 Hu)
    as ((Hall & _) & Hcmd & _).
  split; [exact Hu|]. split; [|exact Hall].
  apply Hcmd.
  - reflexivity.
  - reflexivity.
  - split; reflexivity.
Defined.

(** ** The flags are tested first *)

(** C9: in every iteration, whatever the mode, the flags the poll call
    leaves behind are tested before anything else.  When one of them is set
    the body is left by [break] with nothing but a message logged after the
    poll, and a loop that meets that wakeup ends, having polled once per
    wakeup up to it.  Only when both are clear is the [switch] on the mode
    entered, in the state the poll left. *)
Theorem C9_flags_checked_after_every_poll
        (tracing : Z) (b : bpf_ctx) (w : wakeup) (s : state) :
  (flagged w ->
   fst (loop_body tracing b w s) = Val None /\
   (exists lvl text,
      trace (snd (loop_body tracing b w s))
      = trace s ++ [mk_step (EvPoll (pr_arr_qty b)) (PidToBeKilled s);
                    mk_step (EvMsg lvl text) (PidToBeKilled s)]) /\
   forall pre post,
     fst (while_loop tracing b (pre ++ w :: post) s) = Val tt /\
     (polls (trace (snd (while_loop tracing b (pre ++ w :: post) s)))
      <= polls (trace s) + List.length pre + 1)%nat) /\
  (unflagged w ->
   loop_body tracing b w s
   = (v <- switch_tracing tracing w ;; ret (Some v)) (polled b w s)).
Proof.
  split.
  - intros Hw. split; [|split].
    + destruct (loop_body_steps tracing b w s) as (r & steps & Hr & _ & _ & Hn & _).
      rewrite Hr. cbn. rewrite (Hn Hw). reflexivity.
    + destruct (Z.eq_dec (w_OutputError w) 0) as [Ho|Ho].
      * assert (Ha : w_AbortTracing w <> 0) by (destruct Hw; congruence).
        rewrite loop_body_AbortTracing by assumption.
        do 2 eexists. cbn. rewrite <- app_assoc. reflexivity.
      * rewrite loop_body_OutputError by assumption.
        do 2 eexists. cbn. rewrite <- app_assoc. reflexivity.
    + intros pre post.
      destruct (while_loop_flagged tracing b pre w post Hw s)
        as (steps & Hf & (_ & _ & _ & HT & _) & Hp).
      split; [exact Hf|]. rewrite HT, polls_app. lia.
  - intros [Ho Ha]. apply loop_body_switch; assumption.
Qed.

Lemma C9_witness :
  flagged interrupted /\
  fst (loop_body TRACING_CMD two_readers interrupted polling_777) = Val None /\
  fst (while_loop TRACING_CMD two_readers ([quiet] ++ interrupted :: [child_reaped])
         polling_777) = Val tt.
Proof.
  assert (Hf : flagged interrupted) by (right; discriminate).
  destruct (C9_flags_checked_after_every_poll
              TRACING_CMD two_readers interrupted polling_777) as [H _].
  destruct (H Hf) as (H1 & _ & H3).
  split; [exact Hf|]. split; [exact H1|].
  apply (H3 [quiet] [child_reaped]).
Defined.

(** * Further properties of [check_args] and [main] *)

(** ** The loop in closed form *)

Lemma loop_body_stops tracing b w s :
  match fst (loop_body tracing b w s) with
  | Val None => stops tracing (Args s) w = true
  | Val (Some v) => v = (if stops tracing (Args s) w then 1 else 0)
  | Halt _ => False
  end.
Proof.
  unfold loop_body, perf_reader_poll, switch_tracing, waitpid_any, stops,
    mode_test, bind, call, modify, get, ret, INFO, ERROR.
  unfold ECHILD. cbn.
  destruct (w_OutputError w =? 0); cbn; [|reflexivity].
  destruct (w_AbortTracing w =? 0); cbn; [|reflexivity].
  destruct (tracing =? TRACING_ALL) eqn:Hall; cbn.
  - apply Z.eqb_eq in Hall. subst. reflexivity.
  - destruct (tracing =? TRACING_CMD); cbn.
    + destruct (ff_mode (Args s)); cbn.
      * destruct (w_waitpid w =? -1) eqn:H1; cbn; rewrite ?H1; cbn;
          [destruct (w_errno w =? 10)|]; reflexivity.
      * destruct (w_waitpid w =? -1); cbn;
          destruct (w_waitpid w =? pid (Args s)); reflexivity.
    + destruct (tracing =? TRACING_PID); cbn; [|reflexivity].
      destruct (w_kill0 w =? -1); reflexivity.
Qed.

Lemma while_loop_run tracing b ws :
  forall s, exists steps,
    loop_steps s (snd (while_loop tracing b ws s)) steps /\
    polls steps = S (List.length (running tracing (Args s) ws)) /\
    fst (while_loop tracing b ws s)
    = (if existsb (stops tracing (Args s)) ws then Val tt else Halt Blocked).
Proof.
  induction ws as [|w ws IH]; intros s.
  - eexists. split; [apply loop_steps_blocked|]. split; reflexivity.
  - rewrite while_loop_cons. cbn [existsb running].
    pose proof (loop_body_stops tracing b w s) as Hs.
    loop_body_cases tracing b w s r s1 steps Hst Hp Hn.
    cbn [fst] in Hs. destruct r as [v|].
    + subst v. destruct (stops tracing (Args s) w); cbn.
      * exists steps. split; [exact Hst|]. split; [exact Hp | reflexivity].
      * destruct (IH s1) as (steps' & Hst' & Hp' & Hf).
        assert (HA : Args s1 = Args s) by apply Hst.
        rewrite HA in Hp', Hf.
        exists (steps ++ steps'). split; [eapply loop_steps_trans; eassumption|].
        split; [|exact Hf].
        rewrite polls_app, Hp, Hp'. cbn [List.length]. lia.
    + rewrite Hs. cbn.
      exists steps. split; [exact Hst|]. split; [exact Hp | reflexivity].
Qed.

(** The loop ends at the first wakeup that finds a flag set or passes the
    test of the mode, and stays in the poll call when there is none; it
    polls once per wakeup before that one, and once more. *)
Theorem loop_ends_at_first_stop tracing b ws s :
  fst (while_loop tracing b ws s)
  = (if existsb (stops tracing (Args s)) ws then Val tt else Halt Blocked) /\
  polls (trace (snd (while_loop tracing b ws s)))
  = (polls (trace s) + S (List.length (running tracing (Args s) ws)))%nat.
Proof.
  destruct (while_loop_run tracing b ws s) as (steps & (_ & _ & _ & HT & _) & Hp & Hf).
  split; [exact Hf|]. rewrite HT, polls_app, Hp. reflexivity.
Qed.

(** What [check_args] resolves: a pid that is not greater than zero is
    taken as not given.  With a pid greater than zero the command is a
    conflict and a failing probe is fatal; otherwise the mode is PID.
    Without such a pid the mode is COMMAND when a command is given and ALL
    when it is not. *)
Theorem check_args_resolution (E : env) (args : cl_options) (s : state) :
  Args s = args ->
  match fst (check_args E args s) with
  | Val m =>
      (m = TRACING_PID /\ command args = false /\ 0 < pid args /\
       o_kill0 E (pid args) <> -1) \/
      (m = TRACING_CMD /\ command args = true /\ pid args <= 0) \/
      (m = TRACING_ALL /\ command args = false /\ pid args <= 0)
  | Halt o =>
      o = Exited EXIT_FAILURE /\ 0 < pid args /\
      (command args = true \/ o_kill0 E (pid args) = -1)
  end.
Proof.
  intros <-.
  unfold check_args, bind, call, modify, get, ret, ERROR, WARNING, exit, halt.
  destruct (command (Args s)); cbn;
    destruct (Z.gtb_spec (pid (Args s)) 0); cbn.
  - auto.
  - right. left. repeat split; lia.
  - destruct (Z.eqb_spec (o_kill0 E (pid (Args s))) (-1)); cbn.
    + auto.
    + left. auto.
  - right. right. repeat split; lia.
Qed.

(** ** Every path of [main] *)

Lemma count_ev_app f l1 l2 :
  count_ev f (l1 ++ l2) = (count_ev f l1 + count_ev f l2)%nat.
Proof. unfold count_ev. rewrite filter_app, List.length_app. reflexivity. Qed.

Lemma count_ev_steps f k steps :
  (forall e, loop_event e = true -> f e = false) ->
  Forall (fun st => marker st = k /\ loop_event (ev st) = true) steps ->
  count_ev f (map ev steps) = 0%nat.
Proof.
  intros Hf. induction 1 as [|st steps [_ He] _ IH]; [reflexivity|].
  unfold count_ev in *. cbn. rewrite (Hf _ He). exact IH.
Qed.

Lemma not_in_steps x k steps :
  loop_event x = false ->
  Forall (fun st => marker st = k /\ loop_event (ev st) = true) steps ->
  ~ In x (map ev steps).
Proof.
  intros Hx HF Hin. apply in_map_iff in Hin. destruct Hin as (st & <- & Hst).
  rewrite Forall_forall in HF. destruct (HF st Hst) as [_ He]. congruence.
Qed.

(** Ends a run that enters the loop with what [while_loop_run] says. *)
Ltac exec_loop_exact steps HF Hp :=
  match goal with
  | |- context [while_loop ?t ?b ?ws ?s] =>
      let Hf := fresh "Hf" in
      let HA := fresh "HA" in let HO := fresh "HO" in
      let HP := fresh "HP" in let HT := fresh "HT" in
      let s' := fresh "s'" in let r := fresh "r" in
      destruct (while_loop_run t b ws s)
        as (steps & (HA & HO & HP & HT & HF) & Hp & Hf);
      destruct (while_loop t b ws s) as [r s'];
      cbn in Hf, HA, HO, HP, HT, HF, Hp;
      match type of Hf with
      | _ = (if ?c then _ else _) => destruct c
      end;
      subst r; cbn; intros ->; cbn; rewrite ?HT, ?HP, ?HA, ?HO;
      rewrite <- ?app_assoc; cbn
  end.

(** Runs [main] to its ends, the mode first. *)
Ltac exec_paths p cmd :=
  destruct cmd; destruct (p >? 0) eqn:?; cbn; repeat exec_head.

(** Proves [~ In x l] or [In x l -> False] for a concrete log [l]. *)
Ltac no_such :=
  let H := fresh "H" in
  cbn; intros H;
  repeat (destruct H as [H|H]; [discriminate H|]);
  exact H.

(** Refutes [H : In x l] for a log [l] with loop steps that holds no [x]. *)
Ltac absurd_in x H HF :=
  exfalso;
  let K := fresh "K" in
  assert (K := not_in_steps x _ _ eq_refl HF);
  cbn in H;
  repeat (destruct H as [H|H]; [discriminate H|]);
  rewrite ?map_app, ?in_app_iff in H;
  first [ exact (K H)
        | destruct H as [H|H]; [exact (K H) | revert H; no_such] ].


(** ** Failures of the start-up *)

(** When the output file cannot be set up the process exits with
    [EXIT_FAILURE] right after the error message: no subreaper attribute,
    no signal handler, no command, no eBPF code. *)
Theorem output_setup_failure (E : env) :
  o_setup_out_lf E = false ->
  In EvSetupOutLf (events (snd (run E))) ->
  fst (run E) = Exited EXIT_FAILURE /\
  (exists l, events (snd (run E))
             = l ++ [EvSetupOutLf;
                     EvMsg LvlError "failed to set up the output file"]) /\
  PidToBeKilled (snd (run E)) = 0 /\
  ~ In EvPrctl (events (snd (run E))) /\
  ~ In EvAttachSignalsHandlers (events (snd (run E))) /\
  ~ In EvStartCommand (events (snd (run E))) /\
  ~ In EvGenerateEbpf (events (snd (run E))).
Proof.
  start_run E p cmd ff. take Hs.
  exec_paths p cmd.
  all: intros ->; cbn.
  all: try (intros HIn; exfalso; revert HIn; no_such).
  all: intros _; split; [reflexivity|]; split; [eexists; find_prefix|].
  all: split; [reflexivity|]; repeat split; no_such.
Qed.

(** When [prctl] is called and returns -1, follow-fork was asked for, and
    the process exits with [EXIT_FAILURE] after [perror] and the error
    message, before the signal handlers are attached and before a command
    is started; this is so in every mode. *)
Theorem subreaper_failure (E : env) :
  o_prctl E = -1 ->
  In EvPrctl (events (snd (run E))) ->
  fst (run E) = Exited EXIT_FAILURE /\
  ff_mode (parsed E) = true /\
  (exists l, events (snd (run E))
             = l ++ [EvPrctl; EvPerror "prctl";
                     EvMsg LvlError "failed to set 'child subreaper' attribute"]) /\
  PidToBeKilled (snd (run E)) = 0 /\
  ~ In EvAttachSignalsHandlers (events (snd (run E))) /\
  ~ In EvStartCommand (events (snd (run E))).
Proof.
  start_run E p cmd ff. take Hs.
  exec_paths p cmd.
  all: try exec_loop_exact steps HF Hp.
  all: try intros ->; cbn.
  all: intros HIn.
  all: try (exfalso; revert HIn; no_such).
  all: try (absurd_in EvPrctl HIn HF).
  all: split; [reflexivity|]; split; [reflexivity|]; split; [eexists; find_prefix|].
  all: split; [reflexivity|]; split; no_such.
Qed.

(** When the command cannot be started the process exits with
    [EXIT_FAILURE] right after the error message; [Args.pid] is -1, the
    kill marker is still zero and no signal was sent to anyone. *)
Theorem start_command_failure (E : env) :
  o_start_command E = -1 ->
  In EvStartCommand (events (snd (run E))) ->
  fst (run E) = Exited EXIT_FAILURE /\
  (exists l, events (snd (run E))
             = l ++ [EvAttachSignalsHandlers; EvStartCommand;
                     EvMsg LvlError "failed to start the command"]) /\
  PidToBeKilled (snd (run E)) = 0 /\
  pid (Args (snd (run E))) = -1 /\
  (forall q sig, ~ In (EvKill q sig) (events (snd (run E)))) /\
  ~ In EvGenerateEbpf (events (snd (run E))).
Proof.
  start_run E p cmd ff. take Hs.
  exec_paths p cmd.
  all: try exec_loop_exact steps HF Hp.
  all: try intros ->; cbn.
  all: intros HIn.
  all: try (exfalso; revert HIn; no_such).
  all: try (absurd_in EvStartCommand HIn HF).
  all: split; [reflexivity|]; split; [eexists; find_prefix|].
  all: split; [reflexivity|]; split; [reflexivity|]; split; [intros q sig|]; no_such.
Qed.

(** When [attach_probes] attaches nothing the process goes to
    [error_kill]: the marked child is sent [SIGKILL] and the exit status is
    [EXIT_FAILURE]; [detach_all] is not called and no header is printed. *)
Theorem no_probes_attached (E : env) :
  o_attach_probes E = 0 ->
  In EvAttachProbes (events (snd (run E))) ->
  fst (run E) = Exited EXIT_FAILURE /\
  PidToBeKilled (snd (run E))
  = (if command (parsed E) then o_start_command E else 0) /\
  (exists l,
      events (snd (run E))
      = l ++ [EvAttachProbes; EvMsg LvlError "no probes were attached"]
          ++ (if PidToBeKilled (snd (run E)) =? 0 then []
              else [EvKill (PidToBeKilled (snd (run E))) SIGKILL])) /\
  ~ In EvDetachAll (events (snd (run E))) /\
  ~ In EvPrintHeader (events (snd (run E))).
Proof.
  start_run E p cmd ff. take Hs.
  exec_paths p cmd.
  all: intros ->; cbn.
  all: try (intros HIn; exfalso; revert HIn; no_such).
  all: intros _; split; [reflexivity|]; split; [reflexivity|].
  all: try match goal with
           | H : (?k =? 0) = _ |- context [?k =? 0] => rewrite H
           end; cbn.
  all: split; [eexists; find_prefix|]; split; no_such.
Qed.

(** When the callbacks cannot be attached the process goes to
    [error_detach]: [detach_all], then [SIGKILL] for the marked child, then
    [EXIT_FAILURE]; the child was never resumed and the readers were never
    allocated. *)
Theorem callback_attach_failure (E : env) :
  o_attach_callback E <> 0 ->
  In EvAttachCallback (events (snd (run E))) ->
  fst (run E) = Exited EXIT_FAILURE /\
  (exists l,
      events (snd (run E))
      = l ++ [EvAttachCallback;
              EvMsg LvlError "cannot attach callbacks to perf output '%s'";
              EvDetachAll]
          ++ (if PidToBeKilled (snd (run E)) =? 0 then []
              else [EvKill (PidToBeKilled (snd (run E))) SIGKILL])) /\
  (forall q, ~ In (EvKill q SIGCONT) (events (snd (run E)))) /\
  ~ In EvCallocReaders (events (snd (run E))).
Proof.
  start_run E p cmd ff.
  intros Hr Hh; revert Hr; apply Z.eqb_neq in Hh; rewrite ?Hh; cbn.
  exec_paths p cmd.
  all: intros ->; cbn.
  all: try (intros HIn; exfalso; revert HIn; no_such).
  all: intros _; split; [reflexivity|].
  all: try match goal with
           | H : (?k =? 0) = _ |- context [?k =? 0] => rewrite H
           end; cbn.
  all: split; [eexists; find_prefix|]; split; [intros q|]; no_such.
Qed.

(** ** The calls of the loop, and the clean-up *)

Lemma loop_body_calls tracing b w s :
  exists steps,
    trace (snd (loop_body tracing b w s)) = trace s ++ steps /\
    Forall (fun st => loop_call tracing b (Args s) (ev st) = true) steps.
Proof.
  unfold loop_body, perf_reader_poll, switch_tracing, waitpid_any,
    bind, call, modify, get, ret, INFO, ERROR.
  cbn.
  destruct (w_OutputError w =? 0); cbn;
    [destruct (w_AbortTracing w =? 0); cbn;
     [destruct (tracing =? TRACING_ALL) eqn:Hall; cbn;
      [|destruct (tracing =? TRACING_CMD) eqn:Hcmd; cbn;
        [destruct (ff_mode (Args s)); cbn; destruct (w_waitpid w =? -1) eqn:H1;
         cbn; rewrite ?H1; cbn; split_ifs
        |destruct (tracing =? TRACING_PID) eqn:Hpid; cbn; split_ifs]]|]|].
  all: eexists; split; [rewrite <- ?app_assoc; reflexivity|].
  all: repeat constructor; cbn; rewrite ?Hcmd, ?Hpid, ?Z.eqb_refl; reflexivity.
Qed.

Lemma while_loop_calls tracing b ws :
  forall s, exists steps,
    trace (snd (while_loop tracing b ws s)) = trace s ++ steps /\
    Forall (fun st => loop_call tracing b (Args s) (ev st) = true) steps.
Proof.
  induction ws as [|w ws IH]; intros s.
  - eexists. split; [reflexivity|]. repeat constructor. cbn. apply Z.eqb_refl.
  - rewrite while_loop_cons.
    destruct (loop_body_calls tracing b w s) as (st1 & HT1 & HF1).
    loop_body_cases tracing b w s r s1 steps Hst Hp Hn.
    cbn [snd] in HT1.
    assert (HA : Args s1 = Args s) by apply Hst.
    destruct r as [v|]; [destruct (v =? 0)|].
    + destruct (IH s1) as (st2 & HT2 & HF2). rewrite HA in HF2.
      exists (st1 ++ st2). split.
      * rewrite HT2, HT1, app_assoc. reflexivity.
      * apply Forall_app. split; assumption.
    + exists st1. split; assumption.
    + exists st1. split; assumption.
Qed.

(** What the loop does and leaves alone: it never changes the options,
    the output file or the kill marker, and every call it makes is the
    poll on the readers of [b], a message, [waitpid(-1, NULL, WNOHANG)] in
    the mode COMMAND, or [kill(Args.pid, 0)] in the mode PID. *)
Theorem loop_frame tracing b ws s :
  Args (snd (while_loop tracing b ws s)) = Args s /\
  Out_lf (snd (while_loop tracing b ws s)) = Out_lf s /\
  PidToBeKilled (snd (while_loop tracing b ws s)) = PidToBeKilled s /\
  exists steps,
    trace (snd (while_loop tracing b ws s)) = trace s ++ steps /\
    Forall (fun st => loop_call tracing b (Args s) (ev st) = true /\
                      marker st = PidToBeKilled s) steps.
Proof.
  destruct (while_loop_steps tracing b ws s) as (st1 & _ & (HA & HO & HP & HT & HF) & _).
  destruct (while_loop_calls tracing b ws s) as (st2 & HT2 & HF2).
  repeat split; try assumption.
  exists st1. split; [exact HT|].
  assert (st2 = st1) by (eapply app_inv_head; rewrite <- HT2; exact HT).
  subst st2. rewrite Forall_forall in *. intros st Hin. split.
  - apply HF2. exact Hin.
  - apply HF. exact Hin.
Qed.

Lemma count_detach_steps k steps :
  Forall (fun st => marker st = k /\ loop_event (ev st) = true) steps ->
  count_ev is_detach (map ev steps) = 0%nat.
Proof. apply count_ev_steps. intros []; cbn; congruence. Qed.

Lemma count_header_steps k steps :
  Forall (fun st => marker st = k /\ loop_event (ev st) = true) steps ->
  count_ev is_header (map ev steps) = 0%nat.
Proof. apply count_ev_steps. intros []; cbn; congruence. Qed.

Lemma count_free_steps k steps :
  Forall (fun st => marker st = k /\ loop_event (ev st) = true) steps ->
  count_ev is_free_bpf_str (map ev steps) = 0%nat.
Proof. apply count_ev_steps. intros []; cbn; congruence. Qed.

Lemma count_generate_steps k steps :
  Forall (fun st => marker st = k /\ loop_event (ev st) = true) steps ->
  count_ev is_generate (map ev steps) = 0%nat.
Proof. apply count_ev_steps. intros []; cbn; congruence. Qed.

Lemma count_ev_cons f e l :
  count_ev f (e :: l) = ((if f e then 1 else 0) + count_ev f l)%nat.
Proof. unfold count_ev. cbn. destruct (f e); reflexivity. Qed.

(** Counts the events of a kind in a log that may hold loop steps. *)
Ltac count_up HF :=
  repeat match goal with
         | |- context [List.length (filter ?f ?l)] =>
             change (List.length (filter f l)) with (count_ev f l)
         end;
  rewrite ?count_ev_cons, ?count_ev_app,
    ?(count_detach_steps _ _ HF), ?(count_header_steps _ _ HF),
    ?(count_free_steps _ _ HF), ?(count_generate_steps _ _ HF);
  cbn; try lia; try reflexivity.

Lemma cleanup_counts (E : env) :
  (count_ev is_free_bpf_str (events (snd (run E)))
   = (if o_generate_ebpf E then count_ev is_generate (events (snd (run E)))
      else 0)%nat) /\
  (count_ev is_generate (events (snd (run E))) <= 1)%nat /\
  (count_ev is_header (events (snd (run E))) <= 1)%nat /\
  match fst (run E) with
  | Exited _ => count_ev is_detach (events (snd (run E)))
                = count_ev is_header (events (snd (run E)))
  | Blocked => count_ev is_detach (events (snd (run E))) = 0%nat
  end.
Proof.
  start_run E p cmd ff.
  destruct gen; cbn.
  all: exec_paths p cmd.
  all: try (intros ->; cbn; repeat split; solve [lia | reflexivity]).
  all: exec_loop_exact steps HF Hp.
  all: rewrite ?map_app; cbn [map ev].
  all: repeat split; count_up HF.
Qed.

(** The generated program text is freed exactly once on every run that
    generated it, and never when [generate_ebpf] returned NULL or was not
    reached; [generate_ebpf] is called at most once. *)
Theorem program_text_freed_once (E : env) :
  (count_ev is_free_bpf_str (events (snd (run E)))
   = (if o_generate_ebpf E then count_ev is_generate (events (snd (run E)))
      else 0)%nat) /\
  (count_ev is_generate (events (snd (run E))) <= 1)%nat.
Proof.
  destruct (cleanup_counts E) as (H1 & H2 & _). split; assumption.
Qed.

(** [detach_all] is called exactly once on every run that exits after
    having tried to print the header, and never on any other run; the
    header is printed at most once. *)
Theorem detach_all_once (E : env) :
  (count_ev is_header (events (snd (run E))) <= 1)%nat /\
  match fst (run E) with
  | Exited _ => count_ev is_detach (events (snd (run E)))
                = count_ev is_header (events (snd (run E)))
  | Blocked => count_ev is_detach (events (snd (run E))) = 0%nat
  end.
Proof.
  destruct (cleanup_counts E) as (_ & _ & H3 & H4). split; assumption.
Qed.

(** Every signal other than the zero-signal probe goes to the command the
    process started itself, which is also what the kill marker holds at
    that moment: it is [SIGCONT], or [SIGKILL] for a pid other than 0. *)
Theorem signals_only_to_own_child (E : env) :
  Forall (fun st =>
            forall q sig, ev st = EvKill q sig -> sig <> 0 ->
              command (parsed E) = true /\
              q = o_start_command E /\ q <> -1 /\ marker st = q /\
              (sig = SIGCONT \/ (sig = SIGKILL /\ q <> 0)))
         (trace (snd (run E))).
Proof.
  start_run E p cmd ff.
  exec_paths p cmd.
  all: try exec_loop_exact steps HF Hp.
  all: try intros ->; cbn.
  all: repeat first
         [ apply Forall_nil
         | apply Forall_cons;
           [ cbn; intros q sig Hq Hsig;
             first [ discriminate Hq
                   | injection Hq as <- <-;
                     first [ contradiction Hsig; reflexivity
                           | repeat split;
                             first [ reflexivity
                                   | apply Z.eqb_neq; assumption
                                   | left; reflexivity
                                   | right; split;
                                     [reflexivity | apply Z.eqb_neq; assumption] ] ] ]
           |]
         | apply Forall_app; split
         | eapply Forall_loop_steps; [|exact HF]; cbn;
           intros st _ He q sig Hq Hsig; rewrite Hq in He; cbn in He;
           apply Z.eqb_eq in He; contradiction ].
Qed.

(** A command is started only when one was given, right after the signal
    handlers are attached, with the output file set up before, and before
    any eBPF code is generated or any signal is sent. *)
Theorem command_started_after_handlers (E : env) :
  In EvStartCommand (events (snd (run E))) ->
  command (parsed E) = true /\
  exists l1 l2,
    events (snd (run E))
    = l1 ++ [EvAttachSignalsHandlers; EvStartCommand] ++ l2 /\
    In EvSetupOutLf l1 /\
    ~ In EvGenerateEbpf l1 /\
    (forall q sig, ~ In (EvKill q sig) l1).
Proof.
  start_run E p cmd ff.
  exec_paths p cmd.
  all: try exec_loop_exact steps HF Hp.
  all: try intros ->; cbn.
  all: intros HIn.
  all: try (exfalso; revert HIn; no_such).
  all: try (absurd_in EvStartCommand HIn HF).
  all: split; [reflexivity|].
  all: eexists; eexists; split;
         [ repeat first [ apply app_nil_start | eapply cons_app_intro ] |].
  all: split; [in_list|]; split; [|intros q sig]; no_such.
Qed.

(** ** Instances of the further properties *)

Lemma check_args_resolution_witness :
  Args (with_Args (fun _ => parsed (env_ok 0 true false [])) initial)
  = parsed (env_ok 0 true false []) /\
  fst (check_args (env_ok 0 true false []) (parsed (env_ok 0 true false []))
         (with_Args (fun _ => parsed (env_ok 0 true false [])) initial))
  = Val TRACING_CMD.
Proof.
  split; [reflexivity|].
  pose proof (check_args_resolution (env_ok 0 true false [])
                (parsed (env_ok 0 true false []))
                (with_Args (fun _ => parsed (env_ok 0 true false [])) initial)
                eq_refl) as H.
  destruct (fst (check_args _ _ _)) as [m|o].
  - destruct H as [(_ & Hc & _)|[(-> & _)|(_ & Hc & _)]];
      [discriminate Hc | reflexivity | discriminate Hc].
  - destruct H as (_ & Hp & _). vm_compute in Hp. discriminate Hp.
Defined.

Lemma output_setup_failure_witness :
  o_setup_out_lf (env_no_output 4242 false) = false /\
  In EvSetupOutLf (events (snd (run (env_no_output 4242 false)))) /\
  fst (run (env_no_output 4242 false)) = Exited EXIT_FAILURE.
Proof.
  assert (H1 : In EvSetupOutLf (events (snd (run (env_no_output 4242 false)))))
    by (vm_compute; in_list).
  split; [reflexivity|]. split; [exact H1|].
  apply (output_setup_failure (env_no_output 4242 false) eq_refl H1).
Defined.

Lemma subreaper_failure_witness :
  o_prctl env_prctl_fails = -1 /\
  In EvPrctl (events (snd (run env_prctl_fails))) /\
  fst (run env_prctl_fails) = Exited EXIT_FAILURE.
Proof.
  assert (H1 : In EvPrctl (events (snd (run env_prctl_fails))))
    by (vm_compute; in_list).
  split; [reflexivity|]. split; [exact H1|].
  apply (subreaper_failure env_prctl_fails eq_refl H1).
Defined.

Lemma start_command_failure_witness :
  o_start_command env_start_fails = -1 /\
  In EvStartCommand (events (snd (run env_start_fails))) /\
  fst (run env_start_fails) = Exited EXIT_FAILURE.
Proof.
  assert (H1 : In EvStartCommand (events (snd (run env_start_fails))))
    by (vm_compute; in_list).
  split; [reflexivity|]. split; [exact H1|].
  apply (start_command_failure env_start_fails eq_refl H1).
Defined.

Lemma no_probes_attached_witness :
  o_attach_probes env_attach_fails = 0 /\
  In EvAttachProbes (events (snd (run env_attach_fails))) /\
  fst (run env_attach_fails) = Exited EXIT_FAILURE.
Proof.
  assert (H1 : In EvAttachProbes (events (snd (run env_attach_fails))))
    by (vm_compute; in_list).
  split; [reflexivity|]. split; [exact H1|].
  apply (no_probes_attached env_attach_fails eq_refl H1).
Defined.

Lemma callback_attach_failure_witness :
  o_attach_callback env_callback_fails <> 0 /\
  In EvAttachCallback (events (snd (run env_callback_fails))) /\
  fst (run env_callback_fails) = Exited EXIT_FAILURE.
Proof.
  assert (H0 : o_attach_callback env_callback_fails <> 0) by discriminate.
  assert (H1 : In EvAttachCallback (events (snd (run env_callback_fails))))
    by (vm_compute; in_list).
  split; [exact H0|]. split; [exact H1|].
  apply (callback_attach_failure env_callback_fails H0 H1).
Defined.

Lemma command_started_after_handlers_witness :
  In EvStartCommand (events (snd (run (env_ok (-1) true false [interrupted])))) /\
  command (parsed (env_ok (-1) true false [interrupted])) = true.
Proof.
  assert (H1 : In EvStartCommand
                 (events (snd (run (env_ok (-1) true false [interrupted])))))
    by (vm_compute; in_list).
  split; [exact H1|].
  apply (command_started_after_handlers (env_ok (-1) true false [interrupted]) H1).
Defined.

Lemma loop_entry_witness :
  (1 <= polls (trace (snd (run (env_ok (-1) true false [interrupted])))))%nat /\
  exists m b s0,
    resolved_mode (env_ok (-1) true false [interrupted]) = Val m /\
    pr_arr_qty b = 2 /\
    pid (Args s0) = 777.
Proof.
  assert (H1 : (1 <= polls (trace (snd (run (env_ok (-1) true false [interrupted])))))%nat)
    by (vm_compute; lia).
  split; [exact H1|].
  destruct (loop_entry (env_ok (-1) true false [interrupted]) H1)
    as (m & b & s0 & Hm & Hb & HA & _).
  exists m, b, s0. split; [exact Hm|]. split; [exact Hb|].
  rewrite HA. reflexivity.
Defined.
